(** * RedditRefine content script: a shallow embedding of [src/index.ts]

    The development follows the [Filter] class of the content script:
    keyword and subreddit matching, the classification of a feed element
    into a [Post], the collapse of a post in the page, the removal
    counters with their daily rollover, and the account-age lookup with
    its one-hour cache.

    Conventions of the embedding.
    - A JavaScript string is a [string]; a character is one code unit in
      the range U+0000..U+00FF (the Latin-1 part of UTF-16).  Code units
      above U+00FF are not covered.
    - A [number] holding a count, a time value in milliseconds or a month
      threshold is a [Z]; the quotient computed by [isAccountTooYoung] is
      an exact rational ([Q]), the rounding of IEEE doubles is not modelled
      (the divisor [1000 * 60 * 60 * 24 * 30.44] is 2630016000 in doubles
      too).
    - A DOM element reference is the identifier ([nat]) of the element; the
      page is a tree of elements, and elements removed from the page are
      kept as detached fragments, since the script still reads them.
    - [async] methods run to completion in one step; the network answer
      and the clock are inputs of the step. *)

From Stdlib Require Import ZArith QArith Qround Qabs String Ascii List Bool Lia DecimalString.
From stdpp Require Import gmap strings.
Import ListNotations.

Local Open Scope string_scope.
Local Open Scope Z_scope.

(** ** JavaScript strings *)

Module JsString.

Definition code (c : ascii) : N := N_of_ascii c.

Definition inRange (lo hi : N) (c : ascii) : bool :=
  ((lo <=? code c) && (code c <=? hi))%N.

(** [String.prototype.toLowerCase] on one code unit: A-Z, and the
    Latin-1 capitals U+00C0..U+00DE without the multiplication sign. *)
Definition lowerChar (c : ascii) : ascii :=
  if inRange 65 90 c
     || (inRange 192 222 c && negb (code c =? 215)%N)
  then ascii_of_N (code c + 32)
  else c.

Fixpoint toLowerCase (s : string) : string :=
  match s with
  | EmptyString => EmptyString
  | String c r => String (lowerChar c) (toLowerCase r)
  end.

(** The class [\w] of a RegExp without the [u] flag: [A-Za-z0-9_]. *)
Definition isWordChar (c : ascii) : bool :=
  inRange 97 122 c || inRange 65 90 c || inRange 48 57 c
  || (code c =? 95)%N.

(** [Canonicalize] of an ignore-case RegExp without the [u] flag: the
    code unit of the upper-case form when that form is a single code
    unit.  U+00DF upper-cases to two letters and stays; U+00B5 and U+00FF
    leave Latin-1, which is why the result is a number. *)
Definition canonicalize (c : ascii) : N :=
  if inRange 97 122 c
     || (inRange 224 254 c && negb (code c =? 247)%N)
  then (code c - 32)%N
  else if (code c =? 181)%N then 924%N
  else if (code c =? 255)%N then 376%N
  else code c.

Definition firstChar (s : string) : option ascii :=
  match s with
  | EmptyString => None
  | String c _ => Some c
  end.

Fixpoint lastChar (s : string) : option ascii :=
  match s with
  | EmptyString => None
  | String c EmptyString => Some c
  | String _ r => lastChar r
  end.

(** JavaScript truthiness of a string: the empty string is falsy. *)
Definition truthy (s : string) : bool :=
  match s with
  | EmptyString => false
  | _ => true
  end.

(** [a || b] on strings that may be [null]. *)
Definition orElse (a : option string) (b : option string) : option string :=
  match a with
  | Some s => if truthy s then a else b
  | None => b
  end.

(** [a ?? ''] *)
Definition orEmpty (a : option string) : string :=
  match a with
  | Some s => s
  | None => ""
  end.

Definition quote : string := String (ascii_of_nat 34) EmptyString.

End JsString.

(** ** Regular expressions: the fragment built by [findMatchingKeyword] *)

Module RegExp.
Import JsString.

(** The syntax characters of a pattern, which are also the characters
    of the class [[.*+?^${}()|[\]\\]] replaced in [findMatchingKeyword]. *)
Definition isSyntaxChar (c : ascii) : bool :=
  existsb (Ascii.eqb c)
    ["."; "*"; "+"; "?"; "^"; "$"; "{"; "}"; "("; ")"; "|"; "["; "]"; "\"]%char.

(** [s.replace(/[.*+?^${}()|[\]\\]/g, '\\$&')] *)
Fixpoint escape (s : string) : string :=
  match s with
  | EmptyString => EmptyString
  | String c r =>
      if isSyntaxChar c then String "\" (String c (escape r))
      else String c (escape r)
  end.

(** A pattern of the fragment is a sequence of literal characters and
    word-boundary assertions. *)
Inductive atom : Type :=
| WordBoundary
| Char (c : ascii).

(** [new RegExp(src, 'i')] for the fragment.  A character that is no
    syntax character stands for itself, a backslash followed by a syntax
    character stands for that character, and [\b] is the assertion.
    Every other pattern (an operator, a class, a group, another escape,
    a dangling backslash) is outside the fragment: [None]. *)
Fixpoint compile (src : string) : option (list atom) :=
  match src with
  | EmptyString => Some []
  | String "\" (String c r) =>
      if Ascii.eqb c "b" then option_map (cons WordBoundary) (compile r)
      else if isSyntaxChar c then option_map (cons (Char c)) (compile r)
      else None
  | String c r =>
      if isSyntaxChar c then None
      else option_map (cons (Char c)) (compile r)
  end.

Definition isWordOpt (o : option ascii) : bool :=
  match o with
  | Some c => isWordChar c
  | None => false
  end.

(** Matching at one position; [prev] is the character before it. *)
Fixpoint matchHere (p : list atom) (prev : option ascii) (s : string) : bool :=
  match p with
  | [] => true
  | WordBoundary :: p' =>
      xorb (isWordOpt prev) (isWordOpt (firstChar s)) && matchHere p' prev s
  | Char c :: p' =>
      match s with
      | EmptyString => false
      | String d s' =>
          (canonicalize c =? canonicalize d)%N && matchHere p' (Some d) s'
      end
  end.

Fixpoint testFrom (p : list atom) (prev : option ascii) (s : string) : bool :=
  matchHere p prev s
  || match s with
     | EmptyString => false
     | String d s' => testFrom p (Some d) s'
     end.

(** [regex.test(s)] for a RegExp without the [g] and [y] flags. *)
Definition test (p : list atom) (s : string) : bool := testFrom p None s.

End RegExp.

(** ** Settings *)

Record FilterSettings : Type := mkSettings {
  keywords : list string;
  subreddits : list string;
  enabled : bool;
  minAccountAge : Z;
  accountAgeFilterEnabled : bool
}.

Module Matching.
Import JsString.

(** The source text given to [new RegExp] for one keyword. *)
Definition keywordPattern (keyword : string) : string :=
  "\b" ++ RegExp.escape (toLowerCase keyword) ++ "\b".

(** [regex.test(lowerText)] for the keyword's RegExp.  The [None] branch
    is never taken, see [keywordPattern_compiles]. *)
Definition keywordMatches (keyword lowerText : string) : bool :=
  match RegExp.compile (keywordPattern keyword) with
  | Some p => RegExp.test p lowerText
  | None => false
  end.

Fixpoint firstMatch (kws : list string) (lowerText : string) : option string :=
  match kws with
  | [] => None
  | keyword :: rest =>
      if keywordMatches keyword lowerText then Some keyword
      else firstMatch rest lowerText
  end.

Definition findMatchingKeyword (settings : FilterSettings) (text : string)
  : option string :=
  firstMatch (keywords settings) (toLowerCase text).

Definition isBlockedSubreddit (settings : FilterSettings) (subredditName : string)
  : bool :=
  let lowerSubreddit := toLowerCase subredditName in
  existsb (fun blocked => String.eqb (toLowerCase blocked) lowerSubreddit)
          (subreddits settings).

End Matching.

(** ** The page: a tree of elements *)

Module Dom.
Import JsString.

Record ElemData : Type := mkElem {
  eid : nat;                          (* identity of the element object *)
  tagName : string;                   (* upper case, as [Element.tagName] *)
  attributes : list (string * string);
  textContent : string                (* text held by the element itself *)
}.

#[local] Unset Elimination Schemes.
Inductive node : Type :=
| Elem (d : ElemData) (children : list node).
#[local] Set Elimination Schemes.

Definition data (n : node) : ElemData := let 'Elem d _ := n in d.
Definition children (n : node) : list node := let 'Elem _ ks := n in ks.

(** Induction on a tree, with the property known for every child. *)
Section node_induction.
Variable P : node -> Prop.
Hypothesis step : forall d ks, Forall P ks -> P (Elem d ks).

End node_induction.

Fixpoint lookupAttr (name : string) (l : list (string * string)) : option string :=
  match l with
  | [] => None
  | (k, v) :: r => if String.eqb k name then Some v else lookupAttr name r
  end.

Fixpoint storeAttr (name value : string) (l : list (string * string))
  : list (string * string) :=
  match l with
  | [] => [(name, value)]
  | (k, v) :: r =>
      if String.eqb k name then (k, value) :: r
      else (k, v) :: storeAttr name value r
  end.

Definition getAttribute (n : node) (name : string) : option string :=
  lookupAttr name (attributes (data n)).

Definition setAttributeData (name value : string) (d : ElemData) : ElemData :=
  {| eid := eid d; tagName := tagName d;
     attributes := storeAttr name value (attributes d);
     textContent := textContent d |}.

(** Class tokens of a [class] attribute, separated by ASCII white space. *)
Definition isSpace (c : ascii) : bool :=
  existsb (N.eqb (code c)) [9; 10; 12; 13; 32]%N.

Fixpoint tokens (cur : string) (s : string) : list string :=
  match s with
  | EmptyString => [cur]
  | String c r =>
      if isSpace c then cur :: tokens "" r
      else tokens (cur ++ String c "") r
  end.

Definition hasClass (cls : string) (n : node) : bool :=
  match getAttribute n "class" with
  | Some v => existsb (String.eqb cls) (tokens "" v)
  | None => false
  end.

(** Selectors used by the script. *)
Definition isArticle (n : node) : bool := String.eqb (tagName (data n)) "ARTICLE".
Definition isShredditPost (n : node) : bool :=
  String.eqb (tagName (data n)) "SHREDDIT-POST".
Definition isBanner (n : node) : bool := hasClass "reddit-filter-collapse-banner" n.

(** [article[aria-label], shreddit-post] *)
Definition isCandidate (n : node) : bool :=
  (isArticle n && bool_decide (is_Some (getAttribute n "aria-label")))
  || isShredditPost n.

(** The element and everything below it, in document order. *)
Fixpoint subtree (n : node) : list node :=
  n :: flat_map subtree (children n).

Definition descendants (n : node) : list node := flat_map subtree (children n).


(** [n.querySelector(sel)]: the first proper descendant matching. *)
Definition querySelector (sel : node -> bool) (n : node) : option node :=
  find sel (descendants n).

(** Every element of a tree in document order, each with the result of
    [closest('article')]: itself when it is an article, else its nearest
    article ancestor, else the one handed down in [art]. *)
Fixpoint located (art : option node) (n : node) : list (node * option node) :=
  let art' := if isArticle n then Some n else art in
  (n, art') :: flat_map (located art') (children n).

Definition hasId (e : nat) (v : node * option node) : bool :=
  Nat.eqb (eid (data (fst v))) e.

(** Dereferencing an element reference inside a tree. *)
Definition resolve (root : node) (e : nat) : option (node * option node) :=
  find (hasId e) (located None root).

(** The page: the tree under the document, the fragments that were
    removed from it, and the supply of identities for created elements. *)
Record Document : Type := mkDocument {
  root : node;
  detached : list node;
  nextId : nat
}.


(** An element that is not in the page is looked up in the fragments. *)
Definition resolveDetached (doc : Document) (e : nat) : option (node * option node) :=
  find (hasId e) (flat_map (located None) (detached doc)).

(** [document.querySelectorAll('article[aria-label], shreddit-post')] *)
Definition fetchArticleOrShredditPostsOnPage (doc : Document) : list nat :=
  map (fun n => eid (data n)) (List.filter isCandidate (subtree (root doc))).

(** [ele.closest('article') || ele] *)
Definition articleOrSelf (v : node * option node) : node :=
  match snd v with
  | Some a => a
  | None => fst v
  end.

(** The subtree of the element [t] loses its children, receives the
    banner as only child and [style="position: relative;"]. *)
Fixpoint replaceChildren (t : nat) (banner : node) (n : node) : node :=
  match n with
  | Elem d ks =>
      if Nat.eqb (eid d) t
      then Elem (setAttributeData "style" "position: relative;" d) [banner]
      else Elem d (map (replaceChildren t banner) ks)
  end.

Definition bannerStyle : string :=
  "background-color: #f6f7f8; border: 1px solid #edeff1; border-radius: 4px; padding: 8px 12px; margin: 4px 0; font-size: 12px; color: #7c7c83; cursor: pointer; user-select: none; display: flex; justify-content: space-between; align-items: center;".

Definition buttonStyle : string :=
  "background: none; border: 1px solid #0079d3; color: #0079d3; padding: 2px 8px; border-radius: 2px; font-size: 11px; cursor: pointer;".

(** The banner built by [collapsePost]: a [div] holding the reason and
    the Show button; [i] is the first unused identity. *)
Definition makeBanner (i : nat) (reason : string) : node :=
  Elem {| eid := i; tagName := "DIV";
          attributes := [("class", "reddit-filter-collapse-banner");
                         ("style", bannerStyle)];
          textContent := "" |}
    [ Elem {| eid := S i; tagName := "SPAN"; attributes := [];
              textContent := "Post filtered: " ++ reason |} [];
      Elem {| eid := S (S i); tagName := "BUTTON";
              attributes := [("style", buttonStyle)];
              textContent := "Show" |} [] ].

(** [collapsePost(ele, reason)].  Pausing the videos changes no element
    of the tree.  The clones kept in [_originalChildren] and the click
    handlers serve the Show/Hide toggle, which is a later user action. *)
Definition collapsePost (doc : Document) (ele : nat) (reason : string)
  : Document * bool :=
  match resolve (root doc) ele with
  | None => (doc, false)
  | Some v =>
      let elementToCollapse := articleOrSelf v in
      if bool_decide (is_Some (querySelector isBanner elementToCollapse))
      then (doc, false)
      else
        ({| root := replaceChildren (eid (data elementToCollapse))
                      (makeBanner (nextId doc) reason) (root doc);
            detached := detached doc ++ children elementToCollapse;
            nextId := (nextId doc + 3)%nat |}, true)
  end.

Definition hideElementOrClosestParentArticle := collapsePost.

(** [articleParent.getAttribute('data-reddit-filter-expanded') === 'true'] *)
Definition isExpanded (v : node * option node) : bool :=
  bool_decide (getAttribute (articleOrSelf v) "data-reddit-filter-expanded"
               = Some "true").

End Dom.

(** ** The filter *)

Record Post : Type := mkPost {
  url : string;
  title : string;
  postTagName : string;               (* the field [tagName] of a Post *)
  subreddit : string;
  author : string;
  matchedKeyword : string;
  shouldRemove : bool;
  removalReason : string
}.

Record CounterData : Type := mkCounters {
  totalRemoved : Z;
  dailyRemoved : Z;
  lastResetDate : string
}.

(** A [Date] object: a time value in milliseconds, or the invalid date,
    whose time value is NaN. *)
Inductive Date : Type :=
| ValidDate (t : Z)
| InvalidDate.

Record CacheEntry : Type := mkEntry {
  createdAt : Date;
  fetchedAt : Z
}.

(** The profile page returned for a user, seen through the two queries of
    [parseAccountCreationDate]: the [time] element found by the selector
    path and the one found by [time[data-testid="cake-day"]].  A [time]
    element is its [datetime] attribute and the [Date] that
    [new Date(datetime)] builds from it. *)
Record TimeElement : Type := mkTime {
  datetime : option string;
  asDate : Date
}.

Record ProfileHtml : Type := mkProfile {
  cakeDayElement : option TimeElement;
  fallbackElement : option TimeElement
}.

(** What [fetch] and [response.text()] end with. *)
Inductive FetchResult : Type :=
| FetchRejected                         (* the promise rejects *)
| FetchStatus (status : Z)              (* a response with [ok] false *)
| FetchOk (html : ProfileHtml).

Record Env : Type := mkEnv {
  now : Z;                              (* [Date.now()], milliseconds *)
  network : string -> FetchResult       (* the answer for a username *)
}.

Module Filter.
Import JsString Dom Matching.

Record t : Type := mkFilter {
  settings : FilterSettings;
  counters : CounterData;
  (* an object used as a map from usernames; property names inherited
     from [Object.prototype] are not covered *)
  userAgeCache : gmap string CacheEntry;
  pendingRequests : gset string;
  (* a [Map]: insertion order, one entry per element *)
  elementToPostMapProcessAsync : list (nat * Post);
  document : Document;
  (* usernames for which [fetch] was called, oldest first *)
  requests : list string
}.

Definition withCounters (f : t) (c : CounterData) : t :=
  mkFilter (settings f) c (userAgeCache f) (pendingRequests f)
           (elementToPostMapProcessAsync f) (document f) (requests f).

Definition withDocument (f : t) (d : Document) : t :=
  mkFilter (settings f) (counters f) (userAgeCache f) (pendingRequests f)
           (elementToPostMapProcessAsync f) d (requests f).

Definition withPendingMap (f : t) (m : list (nat * Post)) : t :=
  mkFilter (settings f) (counters f) (userAgeCache f) (pendingRequests f)
           m (document f) (requests f).

Definition withAges (f : t) (c : gmap string CacheEntry) (p : gset string)
           (r : list string) : t :=
  mkFilter (settings f) (counters f) c p
           (elementToPostMapProcessAsync f) (document f) r.

(** [Map.prototype.set] and [Map.prototype.delete] *)
Fixpoint mapSet (k : nat) (v : Post) (m : list (nat * Post)) : list (nat * Post) :=
  match m with
  | [] => [(k, v)]
  | (k', v') :: r =>
      if Nat.eqb k' k then (k', v) :: r else (k', v') :: mapSet k v r
  end.

Definition mapDelete (k : nat) (m : list (nat * Post)) : list (nat * Post) :=
  List.filter (fun kv => negb (Nat.eqb (fst kv) k)) m.

(** *** Counters *)

(** The value stored under [filterCounters]: an object that may lack
    fields. *)
Record StoredCounters : Type := mkStored {
  storedTotal : option Z;
  storedDaily : option Z;
  storedDate : option string
}.

Inductive GetResult : Type :=
| GetRejected                         (* [storage.local.get] rejects *)
| GetMissing                          (* no [filterCounters] key *)
| GetFound (s : StoredCounters).

(** [{ ...this.counters, ...result.filterCounters }] *)
Definition spread (c : CounterData) (s : StoredCounters) : CounterData :=
  {| totalRemoved := default (totalRemoved c) (storedTotal s);
     dailyRemoved := default (dailyRemoved c) (storedDaily s);
     lastResetDate := default (lastResetDate c) (storedDate s) |}.


(** [loadCounters()]; [today] is [new Date().toDateString()].  The
    result is the new value of [this.counters] and what [saveCounters]
    wrote to the store, if it was called. *)
Definition loadCounters (today : string) (result : GetResult) (c : CounterData)
  : CounterData * option CounterData :=
  match result with
  | GetRejected => (c, None)
  | GetMissing => (c, Some c)
  | GetFound s =>
      let c1 := spread c s in
      if bool_decide (lastResetDate c1 <> today) then
        let c2 := {| totalRemoved := totalRemoved c1;
                     dailyRemoved := 0;
                     lastResetDate := today |} in
        (c2, Some c2)
      else (c1, None)
  end.

(** [incrementCounters()]; the write to the store and the message to the
    popup that follow are not read back by the content script. *)
Definition incrementCounters (c : CounterData) : CounterData :=
  {| totalRemoved := totalRemoved c + 1;
     dailyRemoved := dailyRemoved c + 1;
     lastResetDate := lastResetDate c |}.

(** *** Classification *)

Definition keywordReason (k : string) : string :=
  "keyword " ++ quote ++ k ++ quote ++ " matched".

Definition subredditReason (s : string) : string := "blocked subreddit: " ++ s.

Definition withTitle (p : Post) (t : string) : Post :=
  mkPost (url p) t (postTagName p) (subreddit p) (author p)
         (matchedKeyword p) (shouldRemove p) (removalReason p).

Definition withSubreddit (p : Post) (sub : string) : Post :=
  mkPost (url p) (title p) (postTagName p) sub (author p)
         (matchedKeyword p) (shouldRemove p) (removalReason p).

Definition withAuthor (p : Post) (a : string) : Post :=
  mkPost (url p) (title p) (postTagName p) (subreddit p) a
         (matchedKeyword p) (shouldRemove p) (removalReason p).

(** [shouldRemove = true; removalReason = reason] *)
Definition withVerdict (p : Post) (reason : string) : Post :=
  mkPost (url p) (title p) (postTagName p) (subreddit p) (author p)
         (matchedKeyword p) true reason.

(** The two places of [convertElementToPost] that record a keyword:
    [if (matchResult) { shouldRemove = true; matchedKeyword = matchResult;
    removalReason = ... }]. *)
Definition recordKeyword (matchResult : option string) (p : Post) : Post :=
  match matchResult with
  | Some k =>
      if truthy k then
        mkPost (url p) (title p) (postTagName p) (subreddit p) (author p)
               k true (keywordReason k)
      else p
  | None => p
  end.

(** [postInstance.tagName === 'SHREDDIT-POST' ? ele
     : ele.querySelector('shreddit-post')] *)
Definition shredditPostOf (ele : node) : option node :=
  if String.eqb (tagName (data ele)) "SHREDDIT-POST" then Some ele
  else querySelector isShredditPost ele.

(** [convertElementToPost], first block: the initial [postInstance], then
    "Get post URL and title from shreddit-post attributes". *)
Definition readShredditPost (ele : node) : Post :=
  match shredditPostOf ele with
  | Some sp =>
      mkPost
        (match getAttribute sp "permalink" with
         | Some permalink =>
             if truthy permalink then "https://www.reddit.com" ++ permalink else ""
         | None => ""
         end)
        (orEmpty (orElse (getAttribute sp "post-title") (Some "")))
        (tagName (data ele)) "" "" "" false ""
  | None => mkPost "" "" (tagName (data ele)) "" "" "" false ""
  end.

(** Second block: "Check aria-label for filter keywords (for article
    elements)". *)
Definition checkAriaLabel (s : FilterSettings) (ele : node) (p : Post) : Post :=
  if String.eqb (tagName (data ele)) "ARTICLE" then
    let label := orEmpty (orElse (getAttribute ele "aria-label") (Some "")) in
    recordKeyword (findMatchingKeyword s label) (withTitle p label)
  else p.

(** Third block: "Check subreddit name (for both article and
    shreddit-post elements)". *)
Definition checkSubreddit (s : FilterSettings) (ele : node) (p : Post) : Post :=
  let sub :=
    orEmpty (orElse (getAttribute ele "subreddit-prefixed-name")
               (match shredditPostOf ele with
                | Some sp => getAttribute sp "subreddit-prefixed-name"
                | None => Some ""
                end)) in
  if truthy sub && isBlockedSubreddit s sub
  then withVerdict (withSubreddit p sub) (subredditReason sub)
  else withSubreddit p sub.

(** Fourth block: "If not filtered by subreddit, check for matching
    keyword in shreddit-post inside an article"; [parent] is
    [ele.closest('article')]. *)
Definition checkParentArticle (s : FilterSettings) (parent : option node) (p : Post)
  : Post :=
  if negb (shouldRemove p) && String.eqb (postTagName p) "SHREDDIT-POST" then
    match parent with
    | Some parentArticle =>
        let ariaLabel :=
          orEmpty (orElse (getAttribute parentArticle "aria-label") (Some "")) in
        recordKeyword (findMatchingKeyword s ariaLabel)
          (if truthy (title p) then p else withTitle p ariaLabel)
    | None => p
    end
  else p.

(** [convertElementToPost(ele)]; [v] is the element with the result of
    [ele.closest('article')]. *)
Definition convertElementToPost (s : FilterSettings) (v : node * option node)
  : Post :=
  checkParentArticle s (snd v)
    (checkSubreddit s (fst v)
       (checkAriaLabel s (fst v)
          (readShredditPost (fst v)))).

(** The body of the [forEach] of [removePostsFirstPass]. *)
Definition firstPassStep (f : t) (ele : nat) : t :=
  let found :=
    match resolve (root (document f)) ele with
    | Some v => Some v
    | None => resolveDetached (document f) ele
    end in
  match found with
  | None => f
  | Some v =>
      if isExpanded v then f
      else
        let post := convertElementToPost (settings f) v in
        if shouldRemove post then
          let '(doc, wasCollapsed) :=
            hideElementOrClosestParentArticle (document f) ele (removalReason post) in
          if wasCollapsed
          then withCounters (withDocument f doc) (incrementCounters (counters f))
          else withDocument f doc
        else if accountAgeFilterEnabled (settings f) then
          withPendingMap f (mapSet ele post (elementToPostMapProcessAsync f))
        else f
  end.

Definition removePostsFirstPass (f : t) : t :=
  fold_left firstPassStep (fetchArticleOrShredditPostsOnPage (document f)) f.

(** *** Account age *)

Definition msPerMonth : Q := 1000 * 60 * 60 * 24 * (3044 # 100).

(** [(now - createdAt.getTime()) / (1000 * 60 * 60 * 24 * 30.44)] *)
Definition ageInMonths (nowMs created : Z) : Q :=
  inject_Z (nowMs - created) / msPerMonth.

Definition Qltb (x y : Q) : bool := negb (Qle_bool y x).

(** [isAccountTooYoung(createdAt)]; a comparison with NaN is false. *)
Definition isAccountTooYoung (s : FilterSettings) (nowMs : Z) (d : Date) : bool :=
  match d with
  | ValidDate created => Qltb (ageInMonths nowMs created) (inject_Z (minAccountAge s))
  | InvalidDate => false
  end.

Definition showZ (z : Z) : string := NilZero.string_of_int (Z.to_int z).

(** [x.toFixed(1)] *)
Definition toFixed1 (x : Q) : string :=
  let n := Qfloor (Qabs x * 10 + (1 # 2)) in
  (if Qltb x 0 then "-" else "") ++ showZ (n / 10) ++ "." ++ showZ (n mod 10).

Definition tooYoungReason (s : FilterSettings) (nowMs : Z) (who : string)
           (created : Z) : string :=
  "account too young: " ++ who ++ " (" ++ toFixed1 (ageInMonths nowMs created)
    ++ " months old, minimum: " ++ showZ (minAccountAge s) ++ ")".

(** [parseAccountCreationDate(html)] *)
Definition parseAccountCreationDate (html : ProfileHtml) : option Date :=
  match cakeDayElement html with
  | None =>
      match fallbackElement html with
      | Some el =>
          match datetime el with
          | Some dt => if truthy dt then Some (asDate el) else None
          | None => None
          end
      | None => None
      end
  | Some el =>
      match datetime el with
      | Some dt => if truthy dt then Some (asDate el) else None
      | None => None
      end
  end.

Definition cacheWindow : Z := 3600000.

(** [fetchUserProfile(username)].  The answer is the resolved value,
    [None] for [null]. *)
Definition fetchUserProfile (env : Env) (f : t) (username : string)
  : t * option Date :=
  let fresh :=
    match userAgeCache f !! username with
    | Some cached =>
        if now env - fetchedAt cached <? cacheWindow
        then Some (createdAt cached) else None
    | None => None
    end in
  match fresh with
  | Some d => (f, Some d)
  | None =>
      if bool_decide (username ∈ pendingRequests f) then (f, None)
      else
        (* pendingRequests.add ... finally pendingRequests.delete *)
        let pending := pendingRequests f ∖ {[username]} in
        let asked := (requests f ++ [username])%list in
        match network env username with
        | FetchRejected => (withAges f (userAgeCache f) pending asked, None)
        | FetchStatus _ => (withAges f (userAgeCache f) pending asked, None)
        | FetchOk html =>
            match parseAccountCreationDate html with
            | Some created =>
                let cache :=
                  <[username := mkEntry created (now env)]> (userAgeCache f) in
                match created with
                | ValidDate _ => (withAges f cache pending asked, Some created)
                | InvalidDate =>
                    (* [createdAt.toISOString()] throws a RangeError,
                       which the [catch] turns into [null] *)
                    (withAges f cache pending asked, None)
                end
            | None => (withAges f (userAgeCache f) pending asked, None)
            end
        end
  end.

(** [parseAuthorFromElementCalcAge(ele, post)]; [self] is the element
    behind the reference [ele].  The post object is updated in place,
    the new value is returned with the state. *)
Definition parseAuthorFromElementCalcAge (env : Env) (f : t) (ele : nat)
           (self : node) (post : Post) : t * Post :=
  if String.eqb (postTagName post) "SHREDDIT-POST" then
    let post1 := withAuthor post (orEmpty (getAttribute self "author")) in
    if truthy (author post1) then
      let '(f1, resolved) := fetchUserProfile env f (author post1) in
      match resolved with
      | Some (ValidDate created) =>
          if isAccountTooYoung (settings f1) (now env) (ValidDate created) then
            let reason := tooYoungReason (settings f1) (now env) (author post1) created in
            let post2 := withVerdict post1 reason in
            let '(doc, wasCollapsed) :=
              hideElementOrClosestParentArticle (document f1) ele reason in
            if wasCollapsed
            then (withCounters (withDocument f1 doc) (incrementCounters (counters f1)),
                  post2)
            else (withDocument f1 doc, post2)
          else (f1, post1)
      | Some InvalidDate => (f1, post1)
      | None => (f1, post1)
      end
    else (f, post1)
  else (f, post).

(** The body of the loop of [removePostsSecondPass]: every path ends
    with the entry deleted from the pending map. *)
Definition secondPassStep (env : Env) (f : t) (entry : nat * Post) : t :=
  let '(element, post) := entry in
  let drop (g : t) := withPendingMap g (mapDelete element (elementToPostMapProcessAsync g)) in
  match resolve (root (document f)) element with
  | None => drop f
  | Some v =>
      if isExpanded v then drop f
      else drop (fst (parseAuthorFromElementCalcAge env f element (fst v) post))
  end.

Definition batchSize : nat := 5.

Definition removePostsSecondPass (env : Env) (f : t) : t :=
  if negb (accountAgeFilterEnabled (settings f)) then f
  else fold_left (secondPassStep env)
         (firstn batchSize (elementToPostMapProcessAsync f)) f.

End Filter.

(** * Vocabulary of the statements *)

Import JsString Dom Matching Filter.

(** ** Keywords *)









(** ** Classification *)




(** ** The page *)






(** ** Counters and account age *)

Definition countersInvariant (c : CounterData) : Prop :=
  0 <= dailyRemoved c <= totalRemoved c.

Definition rolledOver (today : string) (c : CounterData) : CounterData :=
  {| totalRemoved := totalRemoved c; dailyRemoved := 0; lastResetDate := today |}.


(** ** Sample data *)

Definition today : string := "Mon Nov 02 2026".

Definition idle (s : FilterSettings) (doc : Document) : Filter.t :=
  mkFilter s (mkCounters 0 0 today) ∅ ∅ [] doc [].

Definition noRules : FilterSettings := mkSettings [] [] true 12 true.

Definition hamRules : FilterSettings := mkSettings ["ham"] ["r/spam"] true 12 true.

Definition emptyPage : Document := mkDocument (Elem (mkElem 0 "BODY" [] "") []) [] 1.

(** An article around a shreddit-post, and a shreddit-post on its own. *)
Definition feedPage : Document :=
  mkDocument
    (Elem (mkElem 0 "BODY" [] "")
       [ Elem (mkElem 1 "ARTICLE" [("aria-label", "Ham and eggs")] "")
           [ Elem (mkElem 2 "SHREDDIT-POST"
                     [("permalink", "/r/food/1"); ("post-title", "Ham and eggs");
                      ("subreddit-prefixed-name", "r/food"); ("author", "bob")] "")
               [ Elem (mkElem 3 "DIV" [] "breakfast") [] ] ];
         Elem (mkElem 4 "SHREDDIT-POST"
                 [("subreddit-prefixed-name", "r/ok"); ("author", "al")] "") [] ])
    [] 5.


(** A profile page whose cake-day element has a [datetime] attribute
    that is no date. *)
Definition garbledProfile : ProfileHtml :=
  mkProfile (Some (mkTime (Some "not-a-date") InvalidDate)) None.

(** A cache entry for bob fetched 61 minutes ago, while a lookup for bob
    is in flight. *)
Definition staleAndPending : Filter.t :=
  mkFilter noRules (mkCounters 0 0 today)
           {[ "bob" := mkEntry (ValidDate 0) 1000 ]} {[ "bob" ]} [] emptyPage [].

Definition staleOnly : Filter.t :=
  mkFilter noRules (mkCounters 0 0 today)
           {[ "bob" := mkEntry (ValidDate 0) 1000 ]} ∅ [] emptyPage [].

Definition sixtyOneMinutesLater : Env :=
  mkEnv (1000 + 61 * 60000) (fun _ => FetchRejected).

(** * Facts *)

#[local] Arguments String.append : simpl nomatch.

(** ** Strings *)

Module StringFacts.







Lemma toLowerCase_length s : String.length (toLowerCase s) = String.length s.
Proof. induction s; simpl; congruence. Qed.

Lemma lastChar_cons c s :
  lastChar (String c s) = match lastChar s with Some d => Some d | None => Some c end.
Proof.
  destruct s as [|a s]; [reflexivity|].
  change (lastChar (String c (String a s))) with (lastChar (String a s)).
  assert (H : forall s a, lastChar (String a s) <> None).
  { clear. induction s as [|b s IH]; intros a; [discriminate|].
    change (lastChar (String a (String b s))) with (lastChar (String b s)).
    apply IH. }
  specialize (H s a). now destruct (lastChar (String a s)).
Qed.

Lemma lastChar_app a b :
  lastChar (a ++ b) = match lastChar b with Some d => Some d | None => lastChar a end.
Proof.
  induction a as [|c a IH]; simpl append.
  - now destruct (lastChar b).
  - rewrite !lastChar_cons, IH. now destruct (lastChar b).
Qed.








End StringFacts.

(** ** The RegExp of a keyword *)

Module RegExpFacts.
Import RegExp StringFacts.









End RegExpFacts.

(** ** Keyword and subreddit matching *)

Module MatchingFacts.
Import RegExp StringFacts RegExpFacts.








Lemma isBlockedSubreddit_spec s name :
  isBlockedSubreddit s name = true
  <-> exists blocked, In blocked (subreddits s)
                      /\ toLowerCase blocked = toLowerCase name.
Proof.
  unfold isBlockedSubreddit. rewrite existsb_exists.
  split; intros (b & Hb & E); exists b; (split; [exact Hb|]);
    now apply String.eqb_eq.
Qed.

End MatchingFacts.

Import StringFacts RegExpFacts MatchingFacts.




(** C3: a subreddit is blocked exactly when some entry of the block list
    equals it as a whole string up to case; the entry "R/Foo" blocks the
    page value "r/foo", and the entry "r/foo" does not block "r/foobar". *)
Theorem C3_subreddit_exact_match :
  (forall s name,
      isBlockedSubreddit s name = true
      <-> exists blocked, In blocked (subreddits s)
                          /\ toLowerCase blocked = toLowerCase name)
  /\ (forall kws on age toggle,
         isBlockedSubreddit (mkSettings kws ["R/Foo"] on age toggle) "r/foo" = true)
  /\ (forall kws on age toggle,
         isBlockedSubreddit (mkSettings kws ["r/foo"] on age toggle) "r/foobar" = false).
Proof.
  split; [exact isBlockedSubreddit_spec|]. split; reflexivity.
Qed.

(** ** Classification *)












(** ** Account age *)




(** ** The age cache *)

Lemma fetchUserProfile_fresh env f username cached :
  userAgeCache f !! username = Some cached ->
  now env - fetchedAt cached < cacheWindow ->
  fetchUserProfile env f username = (f, Some (createdAt cached)).
Proof.
  intros Hc Hlt. unfold fetchUserProfile. rewrite Hc.
  apply Z.ltb_lt in Hlt. now rewrite Hlt.
Qed.

Lemma fetchUserProfile_pending env f username cached :
  userAgeCache f !! username = Some cached ->
  cacheWindow <= now env - fetchedAt cached ->
  username ∈ pendingRequests f ->
  fetchUserProfile env f username = (f, None).
Proof.
  intros Hc Hge Hp. unfold fetchUserProfile. rewrite Hc.
  apply Z.ltb_ge in Hge. rewrite Hge. now rewrite bool_decide_eq_true_2.
Qed.

Lemma fetchUserProfile_stale env f username cached :
  userAgeCache f !! username = Some cached ->
  cacheWindow <= now env - fetchedAt cached ->
  username ∉ pendingRequests f ->
  requests (fst (fetchUserProfile env f username))
  = (requests f ++ [username])%list.
Proof.
  intros Hc Hge Hp. unfold fetchUserProfile. rewrite Hc.
  apply Z.ltb_ge in Hge. rewrite Hge. rewrite bool_decide_eq_false_2 by exact Hp.
  destruct (network env username) as [| |html]; try reflexivity.
  destruct (parseAccountCreationDate html) as [[]|]; reflexivity.
Qed.

(** C5, as stated, fails: bob's cache entry was fetched 61 minutes ago,
    and since a lookup for bob is in flight the call answers [null]
    without any external call. *)
Lemma C5_counterexample :
  userAgeCache staleAndPending !! "bob" = Some (mkEntry (ValidDate 0) 1000)
  /\ now sixtyOneMinutesLater - 1000 = 61 * 60000
  /\ fetchUserProfile sixtyOneMinutesLater staleAndPending "bob"
     = (staleAndPending, None)
  /\ requests (fst (fetchUserProfile sixtyOneMinutesLater staleAndPending "bob")) = [].
Proof. vm_compute. repeat split. Qed.

(** C5, amended: with an entry fetched strictly less than one hour ago
    the call returns the cached [createdAt] and leaves the state as it
    is, so no external call is made; with an entry fetched one hour ago
    or more the call makes one external call for the username, unless a
    lookup for that username is in flight, in which case it returns
    [null] without an external call. *)
Theorem C5_cache_first (env : Env) (f : Filter.t) (username : string)
        (cached : CacheEntry) :
  userAgeCache f !! username = Some cached ->
  (now env - fetchedAt cached < 3600000 ->
   fetchUserProfile env f username = (f, Some (createdAt cached)))
  /\ (3600000 <= now env - fetchedAt cached -> username ∉ pendingRequests f ->
      requests (fst (fetchUserProfile env f username))
      = (requests f ++ [username])%list)
  /\ (3600000 <= now env - fetchedAt cached -> username ∈ pendingRequests f ->
      fetchUserProfile env f username = (f, None)).
Proof.
  intros Hc. split; [|split].
  - now apply fetchUserProfile_fresh.
  - now apply fetchUserProfile_stale.
  - now apply fetchUserProfile_pending.
Qed.

Lemma C5_cache_first_witness :
  userAgeCache staleOnly !! "bob" = Some (mkEntry (ValidDate 0) 1000)
  /\ (3600000 <= now sixtyOneMinutesLater - 1000 -> "bob" ∉ pendingRequests staleOnly ->
      requests (fst (fetchUserProfile sixtyOneMinutesLater staleOnly "bob"))
      = (requests staleOnly ++ ["bob"])%list)
  /\ (now (mkEnv (1000 + 59 * 60000) (fun _ => FetchRejected)) - 1000 < 3600000 ->
      fetchUserProfile (mkEnv (1000 + 59 * 60000) (fun _ => FetchRejected)) staleOnly "bob"
      = (staleOnly, Some (ValidDate 0))).
Proof.
  assert (H : userAgeCache staleOnly !! "bob" = Some (mkEntry (ValidDate 0) 1000)).
  { reflexivity. }
  split; [exact H|]. split.
  - exact (proj1 (proj2 (C5_cache_first sixtyOneMinutesLater staleOnly "bob" _ H))).
  - exact (proj1 (C5_cache_first (mkEnv (1000 + 59 * 60000) (fun _ => FetchRejected))
                    staleOnly "bob" _ H)).
Defined.

(** Where the failure isolation holds: a rejected fetch, a response that
    is not ok, and a page without cake-day element or without [datetime]
    value give [null] and leave the cache as it is. *)
Lemma fetchUserProfile_failure env f username :
  match network env username with
  | FetchOk html => parseAccountCreationDate html = None
  | _ => True
  end ->
  userAgeCache (fst (fetchUserProfile env f username)) = userAgeCache f
  /\ (forall d, snd (fetchUserProfile env f username) = Some d ->
                exists cached, userAgeCache f !! username = Some cached
                               /\ createdAt cached = d).
Proof.
  intros H. unfold fetchUserProfile.
  destruct (userAgeCache f !! username) as [cached|] eqn:Hc.
  - destruct (now env - fetchedAt cached <? cacheWindow).
    + split; [reflexivity|]. intros d [= <-]. now exists cached.
    + destruct (bool_decide _); [now split|].
      destruct (network env username) as [| |html]; try now split.
      rewrite H. now split.
  - destruct (bool_decide _); [now split|].
    destruct (network env username) as [| |html]; try now split.
    rewrite H. now split.
Qed.

(** C6, at the failing input: the profile page has a cake-day element
    whose [datetime] is no date.  The call answers [null], yet the cache,
    which had no entry for bob, now holds an invalid date for him, and
    the next call within the hour is answered from that entry. *)
Theorem C6_invalid_date_is_cached :
  let env := mkEnv 1000 (fun _ => FetchOk garbledProfile) in
  let f := idle noRules emptyPage in
  snd (fetchUserProfile env f "bob") = None
  /\ userAgeCache f !! "bob" = None
  /\ userAgeCache (fst (fetchUserProfile env f "bob")) !! "bob"
     = Some (mkEntry InvalidDate 1000)
  /\ fetchUserProfile (mkEnv 2000 (fun _ => FetchRejected))
       (fst (fetchUserProfile env f "bob")) "bob"
     = (fst (fetchUserProfile env f "bob"), Some InvalidDate).
Proof. vm_compute. repeat split. Qed.

Lemma fetchUserProfile_frame env f username :
  settings (fst (fetchUserProfile env f username)) = settings f
  /\ counters (fst (fetchUserProfile env f username)) = counters f
  /\ document (fst (fetchUserProfile env f username)) = document f
  /\ elementToPostMapProcessAsync (fst (fetchUserProfile env f username))
     = elementToPostMapProcessAsync f.
Proof.
  unfold fetchUserProfile.
  destruct (match userAgeCache f !! username with
            | Some cached => _
            | None => None
            end); [now repeat split|].
  destruct (bool_decide _); [now repeat split|].
  destruct (network env username) as [| |html]; try now repeat split.
  destruct (parseAccountCreationDate html) as [[]|]; now repeat split.
Qed.

(** A lookup that answers [null] never removes the post: the verdict,
    the page and the counters stay as they are. *)
Lemma parseAuthorFromElementCalcAge_null env f ele self post :
  snd (fetchUserProfile env f (orEmpty (getAttribute self "author"))) = None ->
  shouldRemove (snd (parseAuthorFromElementCalcAge env f ele self post))
  = shouldRemove post
  /\ document (fst (parseAuthorFromElementCalcAge env f ele self post)) = document f
  /\ counters (fst (parseAuthorFromElementCalcAge env f ele self post)) = counters f.
Proof.
  intros Hnull. unfold parseAuthorFromElementCalcAge.
  destruct (String.eqb (postTagName post) "SHREDDIT-POST"); [|now repeat split].
  cbn [withAuthor author].
  destruct (truthy (orEmpty (getAttribute self "author"))); [|now repeat split].
  pose proof (fetchUserProfile_frame env f (orEmpty (getAttribute self "author")))
    as (_ & Hc & Hd & _).
  destruct (fetchUserProfile env f (orEmpty (getAttribute self "author")))
    as [f1 resolved].
  cbn [fst snd] in *. subst resolved. now repeat split.
Qed.

(** ** Counters *)




(** C9: in a state where [0 <= dailyRemoved <= totalRemoved], an
    increment adds 1 to both counters and keeps the invariant, so
    [totalRemoved] does not decrease; the rollover, which zeroes
    [dailyRemoved] and sets the date, keeps the invariant and
    [totalRemoved]; and loading keeps the invariant when the stored
    counters satisfy it, with [totalRemoved] as stored. *)
Theorem C9_counters_invariant (c : CounterData) :
  countersInvariant c ->
  (countersInvariant (incrementCounters c)
   /\ totalRemoved (incrementCounters c) = totalRemoved c + 1
   /\ dailyRemoved (incrementCounters c) = dailyRemoved c + 1
   /\ totalRemoved c <= totalRemoved (incrementCounters c))
  /\ (forall day,
         countersInvariant (rolledOver day c)
         /\ totalRemoved (rolledOver day c) = totalRemoved c)
  /\ (forall day r,
         (forall s, r = GetFound s -> countersInvariant (spread c s)) ->
         countersInvariant (fst (loadCounters day r c))
         /\ totalRemoved (fst (loadCounters day r c))
            = match r with
              | GetFound s => totalRemoved (spread c s)
              | _ => totalRemoved c
              end).
Proof.
  intros Hc. split; [|split].
  - unfold countersInvariant, incrementCounters in *. cbn. lia.
  - intros day. unfold countersInvariant, rolledOver in *. cbn. lia.
  - intros day r Hs. destruct r as [| |s]; try (split; [exact Hc | reflexivity]).
    specialize (Hs s eq_refl). unfold loadCounters.
    destruct (bool_decide _); cbn [fst]; [|now split].
    unfold countersInvariant in *. cbn [totalRemoved dailyRemoved].
    split; [lia | reflexivity].
Qed.

Lemma C9_counters_invariant_witness :
  countersInvariant (mkCounters 40 7 today)
  /\ countersInvariant (incrementCounters (mkCounters 40 7 today))
  /\ totalRemoved (incrementCounters (mkCounters 40 7 today)) = 41
  /\ dailyRemoved (incrementCounters (mkCounters 40 7 today)) = 8.
Proof.
  assert (H : countersInvariant (mkCounters 40 7 today)).
  { unfold countersInvariant. simpl. lia. }
  split; [exact H|].
  destruct (proj1 (C9_counters_invariant (mkCounters 40 7 today) H)) as (H1 & H2 & H3 & _).
  exact (conj H1 (conj H2 H3)).
Defined.

(** ** The second pass on entries that are no shreddit-post *)

Lemma parseAuthorFromElementCalcAge_other_tag env f element self post :
  postTagName post <> "SHREDDIT-POST" ->
  parseAuthorFromElementCalcAge env f element self post = (f, post).
Proof.
  intros H. unfold parseAuthorFromElementCalcAge.
  destruct (String.eqb_spec (postTagName post) "SHREDDIT-POST");
    [contradiction | reflexivity].
Qed.

Lemma secondPassStep_other_tag env f element post :
  postTagName post <> "SHREDDIT-POST" ->
  secondPassStep env f (element, post)
  = withPendingMap f (mapDelete element (elementToPostMapProcessAsync f)).
Proof.
  intros H. unfold secondPassStep.
  destruct (resolve (root (document f)) element) as [v|]; [|reflexivity].
  destruct (isExpanded v); [reflexivity|].
  now rewrite (parseAuthorFromElementCalcAge_other_tag _ _ _ _ _ H).
Qed.

(** A tick whose batch holds no shreddit-post makes no external call and
    changes neither the page nor the counters. *)
Lemma removePostsSecondPass_other_tags env f :
  Forall (fun entry => postTagName (snd entry) <> "SHREDDIT-POST")
         (firstn batchSize (elementToPostMapProcessAsync f)) ->
  requests (removePostsSecondPass env f) = requests f
  /\ document (removePostsSecondPass env f) = document f
  /\ counters (removePostsSecondPass env f) = counters f.
Proof.
  unfold removePostsSecondPass.
  destruct (negb (accountAgeFilterEnabled (settings f))); [now repeat split|].
  generalize (firstn batchSize (elementToPostMapProcessAsync f)) as batch.
  intros batch. revert f.
  induction batch as [|[element post] batch IH]; intros f H; [now repeat split|].
  apply Forall_cons_1 in H as [H1 H]. cbn [fold_left snd] in *.
  rewrite (secondPassStep_other_tag env f element post H1).
  destruct (IH (withPendingMap f (mapDelete element (elementToPostMapProcessAsync f))) H)
    as (E1 & E2 & E3).
  now repeat split.
Qed.


(** ** Trees and the collapse of a subtree *)

Module DomFacts.













Section collapse.
Variable t : nat.
Variable banner : node.

#[local] Abbreviation C := (replaceChildren t banner).












End collapse.




Lemma makeBanner_isBanner i reason : isBanner (makeBanner i reason) = true.
Proof. reflexivity. Qed.


End DomFacts.

(** ** The first pass *)

Module PassFacts.
Import DomFacts.















End PassFacts.

Import DomFacts PassFacts.







(** The article of the sample page is collapsed once by the first run and
    counted once; the second run counts nothing. *)
Example first_pass_twice :
  counters (idle hamRules feedPage) = mkCounters 0 0 today
  /\ counters (removePostsFirstPass (idle hamRules feedPage)) = mkCounters 1 1 today
  /\ counters (removePostsFirstPass (removePostsFirstPass (idle hamRules feedPage)))
     = mkCounters 1 1 today
  /\ fetchArticleOrShredditPostsOnPage
       (document (removePostsFirstPass (idle hamRules feedPage))) = [1; 4]%nat.
Proof. vm_compute. repeat split. Qed.

